(** * facilitate: the [ecs exec] resolution pipeline

    A shallow embedding of the two implementations of the [ecs exec]
    command, [src/ecs.py] (one monolithic function) and
    [src/facilitate/ecs.py] (the same pipeline split into helpers), and the
    properties of the pipeline stated by the specification.

    The command talks to four AWS operations, prints to the terminal, asks
    the operator two questions and finally spawns [ssh].  All of that is
    modelled as a computation that produces a trace of observable events
    together with the way the computation ends (a returned value,
    [sys.exit(n)] or an uncaught exception).  The answers of the outside
    world (API responses, operator answers, exit code of the subprocess)
    are collected in a record [world].  The spinner ([Halo]) around each
    API call and the colours of [click.style] are left out: they change
    neither the values computed nor the order of the other events. *)

From Stdlib Require Import String Ascii List ZArith Bool Lia.
Import ListNotations.
Local Open Scope string_scope.
Local Open Scope list_scope.

(** ** Python values *)

(** Exceptions that can leave the command. [KeyError] comes from a dict
    subscript on an absent key, [ClientError] from a failing boto3 call,
    [IndexError] from the list prompt when it has nothing to offer. *)
Inductive exn : Type :=
| KeyError (key : string)
| ClientError (msg : string)
| IndexError (msg : string).

(** A container entry of a task description: [c["name"]]. *)
Record container : Type := { name : string }.

(** An entry of [describe_tasks_response["tasks"]]. *)
Record task : Type := {
  taskArn : string;
  containers : list container;
  containerInstanceArn : string
}.

(** An entry of [describe_container_instances_response["containerInstances"]]. *)
Record container_instance : Type := {
  containerInstanceArn' : string;
  ec2InstanceId : string
}.

(** An entry of [reservation["Instances"]].  EC2 leaves the key
    [PublicIpAddress] out of the dict of an instance that has no public
    address, hence the option. *)
Record instance : Type := {
  InstanceId : string;
  PublicIpAddress : option string
}.

(** An entry of [describe_instances_response["Reservations"]]. *)
Record reservation : Type := { Instances : list instance }.

(** ** Observable events *)

Inductive event : Type :=
| ListTasks (cluster service : string)
    (* ecs_client.list_tasks(cluster, serviceName, desiredStatus="RUNNING", launchType="EC2") *)
| DescribeTasks (cluster : string) (tasks : list string)
| DescribeContainerInstances (cluster : string) (containerInstances : list string)
| DescribeInstances (InstanceIds : list string)
| Echo (text : string)                               (* click.echo, styling left out *)
| PromptList (message : string) (choices : list string)   (* the call of prompt, type list *)
| PromptConfirm (message : string)                        (* the call of prompt, type confirm *)
| SubprocessCall (cmd : string).                     (* subprocess.call(cmd, shell=True) *)

(** ** The outside world *)

(** The responses of the four API operations, the answers of the operator
    and the exit code of the subprocess.  A prompt that the operator
    cancels gives back a dict of answers without the question's name:
    that is the answer [None]. *)
Record world : Type := {
  list_tasks : string -> string -> exn + list string;
  describe_tasks : string -> list string -> exn + list task;
  describe_container_instances : string -> list string -> exn + list container_instance;
  describe_instances : list string -> exn + list reservation;
  answer_list : string -> list string -> option string;
  answer_confirm : string -> option bool;
  subprocess_call : string -> Z
}.

(** ** Computations: a trace and an outcome *)

Inductive outcome (A : Type) : Type :=
| Returned (a : A)
| SysExit (code : Z)
| Raised (e : exn).

Arguments Returned {A} a.
Arguments SysExit {A} code.
Arguments Raised {A} e.

Definition M (A : Type) : Type := (list event * outcome A)%type.

Definition ret {A} (a : A) : M A := ([], Returned a).

Definition bind {A B} (m : M A) (f : A -> M B) : M B :=
  match m with
  | (t, Returned a) => let (t', o) := f a in (t ++ t', o)
  | (t, SysExit n) => (t, SysExit n)
  | (t, Raised e) => (t, Raised e)
  end.

Notation "x <- m ;; k" := (bind m (fun x => k))
  (at level 61, m at next level, right associativity).
Notation "m ;;; k" := (bind m (fun _ => k))
  (at level 61, right associativity).

Definition emit (e : event) : M unit := ([e], Returned tt).
Definition sys_exit {A} (n : Z) : M A := ([], SysExit n).
Definition raise {A} (e : exn) : M A := ([], Raised e).

(** A call to an API operation: the call is observed, then its response is
    returned or its exception propagates. *)
Definition call {A} (e : event) (r : exn + A) : M A :=
  emit e ;;;
  match r with
  | inl x => raise x
  | inr a => ret a
  end.

(** [for x in l: body(x)] *)
Fixpoint for_each {A} (l : list A) (body : A -> M unit) : M unit :=
  match l with
  | [] => ret tt
  | x :: l' => body x ;;; for_each l' body
  end.

Definition trace {A} (m : M A) : list event := fst m.
Definition result {A} (m : M A) : outcome A := snd m.

(** The interpreter's exit status.  Both files end in
    [if __name__ == "__main__": ecs()]: the call of the click group is an
    expression statement, so whatever the command function returns is
    dropped and the process ends with status 0 (click's standalone mode
    calls [ctx.exit()] with no code after the command returns);
    [sys.exit(n)] ends it with [n]; an uncaught exception with 1. *)
Definition exit_status {A} (o : outcome A) : Z :=
  match o with
  | Returned _ => 0
  | SysExit n => n
  | Raised _ => 1
  end.

(** ** Python built-ins used by the command *)

Definition dq : string := String "034"%char EmptyString.   (* the double quote *)
Definition nl : string := String "010"%char EmptyString.   (* [\n] *)

(** [" ".join(command)] *)
Definition join_spaces (command : list string) : string := String.concat " " command.

(** [any(xs)]: some element is truthy. *)
Definition any {A} (truthy : A -> bool) (xs : list A) : bool := existsb truthy xs.

(** Truthiness of a container dict: it holds the key ["name"], hence it is
    not empty. *)
Definition container_truthy (c : container) : bool := true.

(** The flattening of the reservations: [itertools.chain] applied to the
    unpacked list of every reservation's ["Instances"], made a list. *)
Definition chain_instances (rs : list reservation) : list instance :=
  List.concat (map Instances rs).

(** [[x[key] for x in xs]] where [key] may be absent: the first absent key
    raises [KeyError] and no list is built. *)
Fixpoint subscript_all {A B} (key : string) (get : A -> option B) (xs : list A)
  : exn + list B :=
  match xs with
  | [] => inr []
  | x :: xs' =>
      match get x with
      | None => inl (KeyError key)
      | Some b =>
          match subscript_all key get xs' with
          | inl e => inl e
          | inr bs => inr (b :: bs)
          end
      end
  end.

Definition lift {A} (r : exn + A) : M A :=
  match r with
  | inl e => raise e
  | inr a => ret a
  end.

(** [d[key]] on a dict of answers that holds the key or not. *)
Definition subscript {A} (key : string) (v : option A) : exn + A :=
  match v with
  | Some a => inr a
  | None => inl (KeyError key)
  end.

(** [prompt] with one question of type [list]: the call is observed; with
    no choice to offer the prompt raises [IndexError] before it shows
    anything; otherwise it gives back the operator's answer, if any. *)
Definition prompt_list (w : world) (message : string) (choices : list string)
  : M (option string) :=
  emit (PromptList message choices) ;;;
  match choices with
  | [] => raise (IndexError "pop from empty list")
  | _ :: _ => ret (answer_list w message choices)
  end.

(** [prompt] with one question of type [confirm]. *)
Definition prompt_confirm (w : world) (message : string) : M (option bool) :=
  emit (PromptConfirm message) ;;;
  ret (answer_confirm w message).

(** ** Texts *)

Definition no_tasks_notice : string := nl ++ "Could not find target tasks. Exiting!".
Definition abort_notice : string := nl ++ "Operation aborted. Exiting!".
Definition item (x : string) : string := "  - " ++ x.
Definition choose_message : string := "Choose EC2 instance to connect to".

Definition confirm_message (command container_name instance_ip : string) : string :=
  "You are about to execute " ++ dq ++ command ++ dq ++ " in the container " ++ dq
  ++ container_name ++ dq ++ " running on the instance " ++ dq ++ instance_ip ++ dq
  ++ ". Do you want to continue?".

(** ** src/facilitate/ecs.py *)

Module Facilitate.

Definition _get_container_task_arns (w : world) (cluster service : string)
  : M (list string) :=
  container_task_arns <- call (ListTasks cluster service) (list_tasks w cluster service) ;;
  (match container_task_arns with
   | [] => emit (Echo no_tasks_notice) ;;; sys_exit 1
   | _ :: _ => ret tt
   end) ;;;
  for_each container_task_arns (fun task_arn => emit (Echo (item task_arn))) ;;;
  ret container_task_arns.

Definition _get_container_instance_arns (w : world) (cluster : string)
  (task_arns : list string) (container_name : string) : M (list string) :=
  tasks <- call (DescribeTasks cluster task_arns) (describe_tasks w cluster task_arns) ;;
  let tasks_with_target_container :=
    filter (fun t =>
              any container_truthy
                  (filter (fun c => String.eqb (name c) container_name) (containers t)))
           tasks in
  let container_instance_arns := map containerInstanceArn tasks_with_target_container in
  for_each container_instance_arns (fun instance_arn => emit (Echo (item instance_arn))) ;;;
  ret container_instance_arns.

Definition _get_container_instance_ids (w : world) (cluster : string)
  (container_instance_arns : list string) : M (list string) :=
  cis <- call (DescribeContainerInstances cluster container_instance_arns)
              (describe_container_instances w cluster container_instance_arns) ;;
  let container_instance_ids := map ec2InstanceId cis in
  for_each container_instance_ids (fun instance_id => emit (Echo (item instance_id))) ;;;
  ret container_instance_ids.

Definition _get_container_instance_ips (w : world) (container_instance_ids : list string)
  : M (list string) :=
  reservations <- call (DescribeInstances container_instance_ids)
                       (describe_instances w container_instance_ids) ;;
  let instances := chain_instances reservations in
  container_instance_ips <- lift (subscript_all "PublicIpAddress" PublicIpAddress instances) ;;
  for_each container_instance_ips (fun instance_ip => emit (Echo (item instance_ip))) ;;;
  ret container_instance_ips.

Definition _ask_target_instance_ip (w : world) (container_instance_ips : list string)
  : M string :=
  target_instance_ip_answer <- prompt_list w choose_message container_instance_ips ;;
  lift (subscript "target_instance_ip" target_instance_ip_answer).

Definition _ask_should_exec (w : world) (command container_name instance_ip : string)
  : M unit :=
  let message := confirm_message command container_name instance_ip in
  should_exec_answer <- prompt_confirm w message ;;
  should_exec <- lift (subscript "should_exec" should_exec_answer) ;;
  if negb should_exec
  then emit (Echo abort_notice) ;;; sys_exit 0
  else ret tt.

Definition ssh_command (identity_file user instance_ip container_name command : string)
  : string :=
  "ssh -i " ++ identity_file ++ " " ++ user ++ "@" ++ instance_ip
  ++ " -t 'bash -c " ++ dq ++ "docker exec -it $(docker ps -q -f name='-"
  ++ container_name ++ "-' | head -n 1) " ++ command ++ dq ++ "'".

Definition _exec (w : world) (identity_file user instance_ip container_name command : string)
  : M (option Z) :=
  let cmd := ssh_command identity_file user instance_ip container_name command in
  emit (SubprocessCall cmd) ;;;
  ret (Some (subprocess_call w cmd)).

Definition exec (w : world) (cluster service user identity_file container_name : string)
  (command : list string) : M (option Z) :=
  let normalized_command := join_spaces command in
  container_task_arns <- _get_container_task_arns w cluster service ;;
  container_instance_arns <-
    _get_container_instance_arns w cluster container_task_arns container_name ;;
  container_instance_ids <- _get_container_instance_ids w cluster container_instance_arns ;;
  container_instance_ips <- _get_container_instance_ips w container_instance_ids ;;
  target_instance_ip <- _ask_target_instance_ip w container_instance_ips ;;
  _ask_should_exec w normalized_command container_name target_instance_ip ;;;
  _exec w identity_file user target_instance_ip container_name normalized_command.

End Facilitate.

(** ** src/ecs.py *)

Module Ecs.

Definition exec (w : world) (cluster service container_name user identity_file : string)
  (command : list string) : M (option Z) :=
  let normalized_command := join_spaces command in
  target_task_arns <- call (ListTasks cluster service) (list_tasks w cluster service) ;;
  (match target_task_arns with
   | [] => emit (Echo no_tasks_notice) ;;; sys_exit 1
   | _ :: _ => ret tt
   end) ;;;
  for_each target_task_arns (fun task_arn => emit (Echo (item task_arn))) ;;;
  tasks <- call (DescribeTasks cluster target_task_arns)
                (describe_tasks w cluster target_task_arns) ;;
  let tasks_with_target_container :=
    filter (fun t =>
              any container_truthy
                  (filter (fun c => String.eqb (name c) container_name) (containers t)))
           tasks in
  let container_instance_arns := map containerInstanceArn tasks_with_target_container in
  for_each container_instance_arns (fun instance_arn => emit (Echo (item instance_arn))) ;;;
  cis <- call (DescribeContainerInstances cluster container_instance_arns)
              (describe_container_instances w cluster container_instance_arns) ;;
  let container_instance_ids := map ec2InstanceId cis in
  for_each container_instance_ids (fun instance_id => emit (Echo (item instance_id))) ;;;
  reservations <- call (DescribeInstances container_instance_ids)
                       (describe_instances w container_instance_ids) ;;
  let instances := chain_instances reservations in
  container_instance_ips <- lift (subscript_all "PublicIpAddress" PublicIpAddress instances) ;;
  for_each container_instance_ips (fun instance_ip => emit (Echo (item instance_ip))) ;;;
  target_instance_ip_answer <- prompt_list w choose_message container_instance_ips ;;
  target_instance_ip <- lift (subscript "target_instance_ip" target_instance_ip_answer) ;;
  let message := confirm_message normalized_command container_name target_instance_ip in
  should_exec_answer <- prompt_confirm w message ;;
  should_exec <- lift (subscript "should_exec" should_exec_answer) ;;
  if negb should_exec
  then emit (Echo abort_notice) ;;; ret None
  else
    emit (Echo "") ;;;
    let cmd :=
      ("ssh -i " ++ identity_file ++ " " ++ user ++ "@" ++ target_instance_ip
       ++ " -t 'bash -c " ++ dq ++ "docker exec -it $(docker ps -q -f name='-"
       ++ container_name ++ "-' | head -n 1) " ++ normalized_command ++ dq ++ "'")%string in
    emit (SubprocessCall cmd) ;;;
    ret (Some (subprocess_call w cmd)).

End Ecs.

(** ** Reading a run: what each stage handed to the next *)

(** The first event of a trace that [pick] recognises. *)
Fixpoint first_some {A} (pick : event -> option A) (t : list event) : option A :=
  match t with
  | [] => None
  | e :: t' =>
      match pick e with
      | Some a => Some a
      | None => first_some pick t'
      end
  end.

(** Output of the Task Locator: the identifiers given to [describe_tasks]. *)
Definition stage_tasks : list event -> option (list string) :=
  first_some (fun e => match e with DescribeTasks _ l => Some l | _ => None end).

(** Output of the Placement Resolver: the identifiers given to
    [describe_container_instances]. *)
Definition stage_arns : list event -> option (list string) :=
  first_some (fun e => match e with DescribeContainerInstances _ l => Some l | _ => None end).

(** Output of the Host Identifier Resolver: the identifiers given to
    [describe_instances]. *)
Definition stage_ids : list event -> option (list string) :=
  first_some (fun e => match e with DescribeInstances l => Some l | _ => None end).

(** Output of the Address Resolver: the choices given to the list prompt. *)
Definition stage_ips : list event -> option (list string) :=
  first_some (fun e => match e with PromptList _ l => Some l | _ => None end).

(** The command line given to the shell, if any. *)
Definition remote_command : list event -> option string :=
  first_some (fun e => match e with SubprocessCall c => Some c | _ => None end).

(** The outputs of the four resolution stages, as far as the run got. *)
Definition stage_outputs (t : list event)
  : option (list string) * option (list string) * option (list string) * option (list string) :=
  (stage_tasks t, stage_arns t, stage_ids t, stage_ips t).

(** The events by which a stage after the Task Locator shows. *)
Definition is_stage_call (e : event) : bool :=
  match e with
  | DescribeTasks _ _ | DescribeContainerInstances _ _ | DescribeInstances _
  | PromptList _ _ | PromptConfirm _ | SubprocessCall _ => true
  | _ => false
  end.

(** [click.echo()] without a text. *)
Definition is_blank_echo (e : event) : bool :=
  match e with Echo s => String.eqb s "" | _ => false end.

(** A trace without the blank lines [click.echo()] prints. *)
Definition without_blank (t : list event) : list event :=
  filter (fun e => negb (is_blank_echo e)) t.

(** A container of the task has exactly the wanted name. *)
Definition runs_container (container_name : string) (t : task) : Prop :=
  exists c, In c (containers t) /\ name c = container_name.

(** The hosting instances of the tasks that run the container. *)
Inductive placement (container_name : string) : list task -> list string -> Prop :=
| placement_nil : placement container_name [] []
| placement_keep t ts arns :
    runs_container container_name t ->
    placement container_name ts arns ->
    placement container_name (t :: ts) (containerInstanceArn t :: arns)
| placement_skip t ts arns :
    ~ runs_container container_name t ->
    placement container_name ts arns ->
    placement container_name (t :: ts) arns.

(** Occurrence of one string inside another. *)
Definition contains (s sub : string) : Prop :=
  exists pre post : string, s = (pre ++ sub ++ post)%string.

(** The lines echoed for the items of a stage's output. *)
Definition echo_items (l : list string) : list event :=
  map (fun x => Echo (item x)) l.

(** The question put at the Confirmation Gate, if the run got there. *)
Definition confirm_asked : list event -> option string :=
  first_some (fun e => match e with PromptConfirm m => Some m | _ => None end).

(** A run that ended at the gate with the operator's refusal. *)
Definition aborted (r : M (option Z)) : Prop :=
  (forall c, ~ In (SubprocessCall c) (trace r))
  /\ exit_status (result r) = 0%Z
  /\ last (trace r) (Echo "") = Echo abort_notice.

(** The filter of the Placement Resolver, as both files write it. *)
Definition has_target (container_name : string) (t : task) : bool :=
  any container_truthy
      (filter (fun c => String.eqb (name c) container_name) (containers t)).

(** ** Worlds used as examples *)

Definition one (s : string) : container := {| name := s |}.

(** The scenario of the specification: two running tasks, only [t1] runs
    the container [api]; it is placed on [i-1], which is host [h-1] with
    address 10.0.0.5.  The operator's answer at the gate and the exit code
    of the remote command are left open. *)
Definition scenario (confirm : bool) (rc : Z) : world := {|
  list_tasks := fun _ _ => inr ["t1"; "t2"];
  describe_tasks := fun _ _ =>
    inr [ {| taskArn := "t1"; containers := [one "api"]; containerInstanceArn := "i-1" |};
          {| taskArn := "t2"; containers := [one "web"]; containerInstanceArn := "i-2" |} ];
  describe_container_instances := fun _ _ =>
    inr [ {| containerInstanceArn' := "i-1"; ec2InstanceId := "h-1" |} ];
  describe_instances := fun _ =>
    inr [ {| Instances := [ {| InstanceId := "h-1"; PublicIpAddress := Some "10.0.0.5" |} ] |} ];
  answer_list := fun _ _ => Some "10.0.0.5";
  answer_confirm := fun _ => Some confirm;
  subprocess_call := fun _ => rc
|}.

(** A cluster whose service has no running task. *)
Definition idle : world := {|
  list_tasks := fun _ _ => inr [];
  describe_tasks := fun _ _ => inr [];
  describe_container_instances := fun _ _ => inr [];
  describe_instances := fun _ => inr [];
  answer_list := fun _ _ => None;
  answer_confirm := fun _ => Some true;
  subprocess_call := fun _ => 0%Z
|}.

(** Two hosts, the second one without a public address. *)
Definition half_private : world := {|
  list_tasks := fun _ _ => inr ["t1"; "t2"];
  describe_tasks := fun _ _ =>
    inr [ {| taskArn := "t1"; containers := [one "api"]; containerInstanceArn := "i-1" |};
          {| taskArn := "t2"; containers := [one "api"]; containerInstanceArn := "i-2" |} ];
  describe_container_instances := fun _ _ =>
    inr [ {| containerInstanceArn' := "i-1"; ec2InstanceId := "h-1" |};
          {| containerInstanceArn' := "i-2"; ec2InstanceId := "h-2" |} ];
  describe_instances := fun _ =>
    inr [ {| Instances := [ {| InstanceId := "h-1"; PublicIpAddress := Some "10.0.0.5" |};
                            {| InstanceId := "h-2"; PublicIpAddress := None |} ] |} ];
  answer_list := fun _ _ => Some "10.0.0.5";
  answer_confirm := fun _ => Some true;
  subprocess_call := fun _ => 0%Z
|}.

(** One running task, which does not run the wanted container; the later
    API operations answer an empty request with an empty response. *)
Definition unmatched : world := {|
  list_tasks := fun _ _ => inr ["t1"];
  describe_tasks := fun _ _ =>
    inr [ {| taskArn := "t1"; containers := [one "web"]; containerInstanceArn := "i-1" |} ];
  describe_container_instances := fun _ _ => inr [];
  describe_instances := fun _ => inr [];
  answer_list := fun _ _ => None;
  answer_confirm := fun _ => Some true;
  subprocess_call := fun _ => 0%Z
|}.

(** The same, with API operations that refuse an empty request. *)
Definition unmatched_strict : world := {|
  list_tasks := fun _ _ => inr ["t1"];
  describe_tasks := fun _ _ =>
    inr [ {| taskArn := "t1"; containers := [one "web"]; containerInstanceArn := "i-1" |} ];
  describe_container_instances := fun _ l =>
    match l with
    | [] => inl (ClientError "InvalidParameterException")
    | _ :: _ => inr []
    end;
  describe_instances := fun _ => inr [];
  answer_list := fun _ _ => None;
  answer_confirm := fun _ => Some true;
  subprocess_call := fun _ => 0%Z
|}.

(** One running task, for which [describe_tasks] answers with two
    descriptions. *)
Definition doubling : world := {|
  list_tasks := fun _ _ => inr ["t1"];
  describe_tasks := fun _ _ =>
    inr [ {| taskArn := "t1"; containers := [one "api"]; containerInstanceArn := "i-1" |};
          {| taskArn := "t1"; containers := [one "api"]; containerInstanceArn := "i-2" |} ];
  describe_container_instances := fun _ _ =>
    inr [ {| containerInstanceArn' := "i-1"; ec2InstanceId := "h-1" |};
          {| containerInstanceArn' := "i-2"; ec2InstanceId := "h-2" |} ];
  describe_instances := fun _ =>
    inr [ {| Instances := [ {| InstanceId := "h-1"; PublicIpAddress := Some "10.0.0.5" |};
                            {| InstanceId := "h-2"; PublicIpAddress := Some "10.0.0.6" |} ] |} ];
  answer_list := fun _ _ => Some "10.0.0.5";
  answer_confirm := fun _ => Some true;
  subprocess_call := fun _ => 0%Z
|}.

(** ** Properties of worlds and traces *)

(** No response holds more records than the request named identifiers. *)
Definition bounded_api (w : world) : Prop :=
  (forall c l r, describe_tasks w c l = inr r -> length r <= length l)
  /\ (forall c l r, describe_container_instances w c l = inr r -> length r <= length l)
  /\ (forall l r, describe_instances w l = inr r -> length (chain_instances r) <= length l).

(** The number of candidates does not grow along the stages a run reached. *)
Definition shrinking (t : list event) : Prop :=
  (forall ts arns, stage_tasks t = Some ts -> stage_arns t = Some arns ->
                   length arns <= length ts)
  /\ (forall arns ids, stage_arns t = Some arns -> stage_ids t = Some ids ->
                       length ids <= length arns)
  /\ (forall ids ips, stage_ids t = Some ids -> stage_ips t = Some ips ->
                      length ips <= length ids).

(** Every stage's output is a filter and/or an element-wise projection of
    the response to the request made with the previous stage's output. *)
Definition derived (w : world) (cluster container_name : string) (t : list event) : Prop :=
  (forall arns, stage_arns t = Some arns ->
     exists ts tasks,
       stage_tasks t = Some ts /\ describe_tasks w cluster ts = inr tasks
       /\ arns = map containerInstanceArn (filter (has_target container_name) tasks))
  /\ (forall ids, stage_ids t = Some ids ->
        exists arns cis,
          stage_arns t = Some arns /\ describe_container_instances w cluster arns = inr cis
          /\ ids = map ec2InstanceId cis)
  /\ (forall ips, stage_ips t = Some ips ->
        exists ids rs,
          stage_ids t = Some ids /\ describe_instances w ids = inr rs
          /\ map PublicIpAddress (chain_instances rs) = map Some ips).

(** A world whose API answers record by record. *)
Definition elementwise : world := {|
  list_tasks := fun _ _ => inr ["t1"; "t2"];
  describe_tasks := fun _ l =>
    inr (map (fun a => {| taskArn := a; containers := [one "api"];
                          containerInstanceArn := ("i-" ++ a)%string |}) l);
  describe_container_instances := fun _ l =>
    inr (map (fun a => {| containerInstanceArn' := a; ec2InstanceId := ("h-" ++ a)%string |}) l);
  describe_instances := fun l =>
    inr [ {| Instances :=
               map (fun h => {| InstanceId := h; PublicIpAddress := Some ("ip-" ++ h)%string |}) l |} ];
  answer_list := fun _ l => hd_error l;
  answer_confirm := fun _ => Some true;
  subprocess_call := fun _ => 0%Z
|}.

(** Two worlds whose four API operations answer alike; the operator and
    the remote command may behave differently. *)
Definition same_api (w1 w2 : world) : Prop :=
  (forall c s, list_tasks w1 c s = list_tasks w2 c s)
  /\ (forall c l, describe_tasks w1 c l = describe_tasks w2 c l)
  /\ (forall c l, describe_container_instances w1 c l = describe_container_instances w2 c l)
  /\ (forall l, describe_instances w1 l = describe_instances w2 l).

(** ** Further observers *)

(** The kinds of events other than echoes, in the order of the pipeline. *)
Inductive kind : Type :=
| KListTasks
| KDescribeTasks
| KDescribeContainerInstances
| KDescribeInstances
| KPromptList
| KPromptConfirm
| KSubprocessCall.

Definition kind_of (e : event) : option kind :=
  match e with
  | ListTasks _ _ => Some KListTasks
  | DescribeTasks _ _ => Some KDescribeTasks
  | DescribeContainerInstances _ _ => Some KDescribeContainerInstances
  | DescribeInstances _ => Some KDescribeInstances
  | Echo _ => None
  | PromptList _ _ => Some KPromptList
  | PromptConfirm _ => Some KPromptConfirm
  | SubprocessCall _ => Some KSubprocessCall
  end.

(** The kinds of the events of a trace, echoes left out. *)
Fixpoint kinds (t : list event) : list kind :=
  match t with
  | [] => []
  | e :: t' =>
      match kind_of e with
      | Some k => k :: kinds t'
      | None => kinds t'
      end
  end.

Definition pipeline_order : list kind :=
  [KListTasks; KDescribeTasks; KDescribeContainerInstances; KDescribeInstances;
   KPromptList; KPromptConfirm; KSubprocessCall].

(** The texts echoed by a trace. *)
Fixpoint echoes (t : list event) : list string :=
  match t with
  | [] => []
  | Echo s :: t' => s :: echoes t'
  | _ :: t' => echoes t'
  end.

(** An event that concerns the given cluster and service only. *)
Definition on_cluster (cluster service : string) (e : event) : Prop :=
  match e with
  | ListTasks c s => c = cluster /\ s = service
  | DescribeTasks c _ => c = cluster
  | DescribeContainerInstances c _ => c = cluster
  | _ => True
  end.

(** The list prompt answers with one of the choices it was given. *)
Definition honours_choices (w : world) : Prop :=
  forall m l a, answer_list w m l = Some a -> In a l.


(** ** Basic facts about computations *)

(** The loops that echo the items of a list print one line per item. *)
Lemma for_each_echo_items (l : list string) :
  for_each l (fun x => emit (Echo (item x))) = (echo_items l, Returned tt).
Proof.
  unfold echo_items. induction l as [|x l IH]; simpl; [reflexivity|].
  rewrite IH. reflexivity.
Qed.

(** ** Stepping through a run *)

Ltac run_simpl :=
  cbn [bind call emit ret raise sys_exit lift subscript prompt_list prompt_confirm
       fst snd negb app trace result];
  rewrite ?app_nil_r.

Ltac run_step :=
  first
    [ rewrite for_each_echo_items
    | match goal with
      | |- context [list_tasks ?w ?c ?s] =>
          destruct (list_tasks w c s) as [?e|[|? ?]] eqn:?
      | |- context [describe_tasks ?w ?c ?l] =>
          destruct (describe_tasks w c l) as [?e|?] eqn:?
      | |- context [describe_container_instances ?w ?c ?l] =>
          destruct (describe_container_instances w c l) as [?e|?] eqn:?
      | |- context [describe_instances ?w ?l] =>
          destruct (describe_instances w l) as [?e|?] eqn:?
      | |- context [lift (subscript_all ?k ?g ?l)] =>
          destruct (subscript_all k g l) as [?e|?] eqn:?
      | |- context [match ?l with [] => raise _ | _ :: _ => _ end] =>
          destruct l as [|? ?]
      | |- context [subscript _ (answer_list ?w ?m ?l)] =>
          destruct (answer_list w m l) as [?|] eqn:?
      | |- context [subscript _ (answer_confirm ?w ?m)] =>
          destruct (answer_confirm w m) as [[|]|] eqn:?
      end ]; run_simpl.

Ltac unfold_facilitate :=
  unfold Facilitate.exec, Facilitate._get_container_task_arns,
    Facilitate._get_container_instance_arns, Facilitate._get_container_instance_ids,
    Facilitate._get_container_instance_ips, Facilitate._ask_target_instance_ip,
    Facilitate._ask_should_exec, Facilitate._exec.

Ltac run_facilitate := unfold_facilitate; run_simpl; repeat run_step.
Ltac run_ecs := unfold Ecs.exec; run_simpl; repeat run_step.

(** ** Facts about the observers *)

Section Observers.

Context {A : Type} (pick : event -> option A).
Hypothesis pick_echo : forall s, pick (Echo s) = None.

(** An observer that does not look at echoes skips the echoed items. *)
Lemma first_some_echo_items l t :
  first_some pick (echo_items l ++ t) = first_some pick t.
Proof.
  induction l as [|x l IH]; simpl; [reflexivity|].
  rewrite pick_echo. exact IH.
Qed.

(** Nor does it see whether the blank lines are there. *)
Lemma first_some_without_blank t :
  first_some pick (without_blank t) = first_some pick t.
Proof.
  induction t as [|e t IH]; simpl; [reflexivity|].
  destruct (is_blank_echo e) eqn:Hb; simpl.
  - destruct e; try discriminate. rewrite pick_echo. exact IH.
  - rewrite IH. reflexivity.
Qed.

End Observers.

Lemma first_some_none_not_in A (pick : event -> option A) t :
  first_some pick t = None -> forall e, In e t -> pick e = None.
Proof.
  induction t as [|x t IH]; simpl; intros H e Hin; [contradiction|].
  destruct (pick x) eqn:Hx; [discriminate|].
  destruct Hin as [<-|Hin]; [exact Hx|]. apply IH; assumption.
Qed.

Lemma remote_command_none t :
  remote_command t = None -> forall c, ~ In (SubprocessCall c) t.
Proof.
  intros H c Hin.
  pose proof (first_some_none_not_in _ _ _ H _ Hin) as Hc. discriminate.
Qed.

Lemma last_echo_items_app l e t d :
  last (echo_items l ++ e :: t) d = last (e :: t) d.
Proof.
  induction l as [|x l IH]; [reflexivity|].
  change (echo_items (x :: l) ++ e :: t) with (Echo (item x) :: (echo_items l ++ e :: t)).
  rewrite <- IH. simpl. destruct (echo_items l ++ e :: t) eqn:E; [|reflexivity].
  destruct (echo_items l); discriminate.
Qed.

Lemma last_cons_cons A (x y : A) l d : last (x :: y :: l) d = last (y :: l) d.
Proof. reflexivity. Qed.

Lemma last_cons_echo_items_app x l e t d :
  last (x :: echo_items l ++ e :: t) d = last (e :: t) d.
Proof.
  rewrite <- (last_echo_items_app l e t d).
  destruct (echo_items l ++ e :: t) eqn:E; [|reflexivity].
  destruct (echo_items l); discriminate.
Qed.

Ltac observe :=
  unfold stage_outputs, stage_tasks, stage_arns, stage_ids, stage_ips, remote_command;
  repeat first
    [ rewrite first_some_echo_items by reflexivity
    | progress cbn [first_some app] ].

Ltac last_event :=
  repeat first
    [ rewrite last_cons_echo_items_app
    | rewrite last_echo_items_app
    | rewrite last_cons_cons ];
  cbn [last].

(** ** Concrete worlds *)

(** ** The Task Locator finds nothing *)

(** C6. When [list_tasks] answers with no task, both implementations print
    the notice that no target task was found and leave with status 1; the
    trace holds the [list_tasks] call and the notice only, so no later
    stage (placement, host, address, selection, confirmation, remote
    execution) took place. *)
Theorem no_running_task_exits_1 w cluster service container_name user identity_file command :
  list_tasks w cluster service = inr [] ->
  let stop := ([ListTasks cluster service; Echo no_tasks_notice], SysExit 1) in
  Facilitate.exec w cluster service user identity_file container_name command = stop
  /\ Ecs.exec w cluster service container_name user identity_file command = stop
  /\ exit_status (result stop) = 1%Z
  /\ existsb is_stage_call (trace stop) = false.
Proof.
  intros H stop. subst stop.
  repeat split.
  - unfold_facilitate. rewrite H. reflexivity.
  - unfold Ecs.exec. rewrite H. reflexivity.
Qed.

Lemma no_running_task_exits_1_witness :
  Facilitate.exec idle "c" "s" "ec2-user" "~/.ssh/id_rsa" "api" ["sh"]
  = ([ListTasks "c" "s"; Echo no_tasks_notice], SysExit 1).
Proof.
  apply (no_running_task_exits_1 idle "c" "s" "api" "ec2-user" "~/.ssh/id_rsa" ["sh"]).
  reflexivity.
Defined.

(** ** The Confirmation Gate *)

(** C5. In a run that reaches the Confirmation Gate and gets the answer
    no, no subprocess is started, the last thing printed is the abort
    notice and the exit status is 0; in both implementations. *)
Theorem declined_run_never_executes w cluster service container_name user identity_file command m :
  answer_confirm w m = Some false ->
  (confirm_asked (trace (Facilitate.exec w cluster service user identity_file
                           container_name command)) = Some m ->
   aborted (Facilitate.exec w cluster service user identity_file container_name command))
  /\ (confirm_asked (trace (Ecs.exec w cluster service container_name user identity_file
                              command)) = Some m ->
      aborted (Ecs.exec w cluster service container_name user identity_file command)).
Proof.
  intros Hno. unfold aborted, confirm_asked. split.
  - run_facilitate; observe; intros Hm; try discriminate.
    all: injection Hm as <-; try congruence.
    repeat split.
    + apply remote_command_none. observe. reflexivity.
    + last_event. reflexivity.
  - run_ecs; observe; intros Hm; try discriminate.
    all: injection Hm as <-; try congruence.
    repeat split.
    + apply remote_command_none. observe. reflexivity.
    + last_event. reflexivity.
Qed.

Lemma declined_run_never_executes_witness :
  aborted (Facilitate.exec (scenario false 7) "c" "s" "ec2-user" "key" "api" ["echo"; "hi"])
  /\ aborted (Ecs.exec (scenario false 7) "c" "s" "api" "ec2-user" "key" ["echo"; "hi"]).
Proof.
  destruct (declined_run_never_executes (scenario false 7) "c" "s" "api" "ec2-user" "key"
              ["echo"; "hi"] (confirm_message "echo hi" "api" "10.0.0.5") eq_refl)
    as [HF HE].
  split; [apply HF | apply HE]; reflexivity.
Defined.

(** ** The Remote Executor *)

(** What the command function hands back after the remote session: the
    value of [subprocess.call] on the command line it built. *)
Lemma exec_returns_remote_code w cluster service container_name user identity_file command c :
  (remote_command (trace (Facilitate.exec w cluster service user identity_file
                            container_name command)) = Some c ->
   result (Facilitate.exec w cluster service user identity_file container_name command)
   = Returned (Some (subprocess_call w c)))
  /\ (remote_command (trace (Ecs.exec w cluster service container_name user identity_file
                               command)) = Some c ->
      result (Ecs.exec w cluster service container_name user identity_file command)
      = Returned (Some (subprocess_call w c))).
Proof.
  split.
  - run_facilitate; observe; intros Hc; try discriminate.
    injection Hc as <-. reflexivity.
  - run_ecs; observe; intros Hc; try discriminate.
    injection Hc as <-. reflexivity.
Qed.

(** C3. In the scenario of the specification, confirmed by the operator and
    with a remote command that ends with code 7, the command function of
    both implementations returns 7, yet the exit status of the process is
    0: the returned value never reaches [sys.exit]. *)
Theorem remote_exit_code_is_dropped :
  let f := Facilitate.exec (scenario true 7) "c" "s" "ec2-user" "key" "api" ["echo"; "hi"] in
  let e := Ecs.exec (scenario true 7) "c" "s" "api" "ec2-user" "key" ["echo"; "hi"] in
  result f = Returned (Some 7%Z) /\ exit_status (result f) = 0%Z
  /\ result e = Returned (Some 7%Z) /\ exit_status (result e) = 0%Z.
Proof. repeat split. Qed.

Lemma string_app_assoc (a b c : string) : ((a ++ b) ++ c = a ++ (b ++ c))%string.
Proof. induction a as [|x a IH]; simpl; [reflexivity|]. rewrite IH. reflexivity. Qed.

(** C7. The command line given to the shell by the Remote Executor holds
    the dash-wrapped name of the container as the filter of [docker ps],
    takes the first container found ([head -n 1]) and ends with the
    space-joined command, closed by the two quotes; [_exec] passes exactly
    this line to [subprocess.call], and a run of either implementation
    that starts a subprocess starts it with this line, for the address
    the operator chose among the addresses offered. *)
Theorem remote_command_shape w cluster service identity_file user instance_ip container_name command :
  let normalized_command := join_spaces command in
  let line ip := Facilitate.ssh_command identity_file user ip container_name normalized_command in
  Facilitate._exec w identity_file user instance_ip container_name normalized_command
  = ([SubprocessCall (line instance_ip)], Returned (Some (subprocess_call w (line instance_ip))))
  /\ contains (line instance_ip) ("-" ++ container_name ++ "-")
  /\ (exists pre : string,
        line instance_ip
        = (pre ++ "docker exec -it $(docker ps -q -f name='-" ++ container_name
             ++ "-' | head -n 1) " ++ normalized_command ++ dq ++ "'")%string)
  /\ (forall c,
        remote_command (trace (Facilitate.exec w cluster service user identity_file
                                 container_name command)) = Some c ->
        exists ips ip,
          stage_ips (trace (Facilitate.exec w cluster service user identity_file
                              container_name command)) = Some ips
          /\ answer_list w choose_message ips = Some ip
          /\ c = line ip)
  /\ (forall c,
        remote_command (trace (Ecs.exec w cluster service container_name user identity_file
                                 command)) = Some c ->
        exists ips ip,
          stage_ips (trace (Ecs.exec w cluster service container_name user identity_file
                              command)) = Some ips
          /\ answer_list w choose_message ips = Some ip
          /\ c = line ip).
Proof.
  intros normalized_command line. subst line. cbv beta.
  split; [reflexivity|]. split; [|split; [|split]].
  - exists ("ssh -i " ++ identity_file ++ " " ++ user ++ "@" ++ instance_ip
            ++ " -t 'bash -c " ++ dq ++ "docker exec -it $(docker ps -q -f name='")%string.
    exists ("' | head -n 1) " ++ normalized_command ++ dq ++ "'")%string.
    unfold Facilitate.ssh_command.
    repeat rewrite string_app_assoc. reflexivity.
  - exists ("ssh -i " ++ identity_file ++ " " ++ user ++ "@" ++ instance_ip
            ++ " -t 'bash -c " ++ dq)%string.
    unfold Facilitate.ssh_command.
    repeat rewrite string_app_assoc. reflexivity.
  - intros c. run_facilitate; observe; intros Hc; try discriminate.
    injection Hc as <-. do 2 eexists. split; [reflexivity|]. split; [eassumption | reflexivity].
  - intros c. run_ecs; observe; intros Hc; try discriminate.
    injection Hc as <-. do 2 eexists. split; [reflexivity|]. split; [eassumption | reflexivity].
Qed.

Lemma remote_command_shape_witness :
  exists ips ip,
    stage_ips (trace (Ecs.exec (scenario true 0) "c" "s" "api" "ec2-user" "key"
                        ["echo"; "hi"])) = Some ips
    /\ answer_list (scenario true 0) choose_message ips = Some ip
    /\ Facilitate.ssh_command "key" "ec2-user" "10.0.0.5" "api" "echo hi"
       = Facilitate.ssh_command "key" "ec2-user" ip "api" (join_spaces ["echo"; "hi"]).
Proof.
  destruct (remote_command_shape (scenario true 0) "c" "s" "key" "ec2-user" "10.0.0.5" "api"
              ["echo"; "hi"]) as [_ [_ [_ [_ H]]]].
  apply H. reflexivity.
Defined.

(** The example of the specification: command [echo hi] in container [web]. *)
Example remote_command_echo_hi :
  Facilitate.ssh_command "~/.ssh/id_rsa" "ec2-user" "10.0.0.5" "web" (join_spaces ["echo"; "hi"])
  = ("ssh -i ~/.ssh/id_rsa ec2-user@10.0.0.5 -t 'bash -c " ++ dq
     ++ "docker exec -it $(docker ps -q -f name='-web-' | head -n 1) echo hi" ++ dq ++ "'")%string.
Proof. reflexivity. Qed.

(** ** The Placement Resolver *)

Lemma has_target_runs container_name t :
  has_target container_name t = true <-> runs_container container_name t.
Proof.
  unfold has_target, any, runs_container. rewrite existsb_exists. split.
  - intros [c [Hin _]]. apply filter_In in Hin. destruct Hin as [Hin Heq].
    exists c. split; [exact Hin|]. apply String.eqb_eq. exact Heq.
  - intros [c [Hin Heq]]. exists c. split; [|reflexivity].
    apply filter_In. split; [exact Hin|]. apply String.eqb_eq. exact Heq.
Qed.

Lemma placement_filter container_name tasks :
  placement container_name tasks
            (map containerInstanceArn (filter (has_target container_name) tasks)).
Proof.
  induction tasks as [|t ts IH]; simpl; [constructor|].
  destruct (has_target container_name t) eqn:Ht; simpl.
  - apply placement_keep; [apply has_target_runs; exact Ht | exact IH].
  - apply placement_skip; [|exact IH].
    intros Hr. apply has_target_runs in Hr. congruence.
Qed.

Lemma placement_functional container_name tasks arns arns' :
  placement container_name tasks arns ->
  placement container_name tasks arns' ->
  arns = arns'.
Proof.
  intros H. revert arns'.
  induction H as [|t ts arns Hr _ IH|t ts arns Hr _ IH]; intros arns' H'; inversion H'; subst;
    try contradiction; try reflexivity.
  - f_equal. apply IH. assumption.
  - apply IH. assumption.
Qed.

(** C4. For every response of [describe_tasks] and every container name,
    the Placement Resolver returns the hosting-instance identifiers of
    exactly the tasks that have a container whose name is equal to the
    wanted one (equality of strings, so case matters), in the order of the
    response and with repetitions kept: the returned list is the only one
    related to the response by [placement].  In [src/ecs.py] the same list
    is what the stage hands to [describe_container_instances]. *)
Theorem placement_resolver_exact w cluster task_arns container_name tasks :
  describe_tasks w cluster task_arns = inr tasks ->
  exists arns,
    placement container_name tasks arns
    /\ (forall arns', placement container_name tasks arns' -> arns' = arns)
    /\ result (Facilitate._get_container_instance_arns w cluster task_arns container_name)
       = Returned arns
    /\ (forall service user identity_file command,
          list_tasks w cluster service = inr task_arns ->
          task_arns <> [] ->
          stage_arns (trace (Ecs.exec w cluster service container_name user identity_file
                               command)) = Some arns).
Proof.
  intros Hd.
  exists (map containerInstanceArn (filter (has_target container_name) tasks)).
  split; [apply placement_filter|]. split; [|split].
  - intros arns' H'. eapply placement_functional; [exact H' | apply placement_filter].
  - unfold Facilitate._get_container_instance_arns. rewrite Hd. run_simpl.
    rewrite for_each_echo_items. reflexivity.
  - intros service user identity_file command Hl Hne.
    unfold Ecs.exec. rewrite Hl. destruct task_arns as [|a l]; [congruence|].
    run_simpl. rewrite for_each_echo_items. run_simpl. rewrite Hd. run_simpl.
    repeat run_step; observe; reflexivity.
Qed.

Lemma placement_resolver_exact_witness :
  exists arns,
    placement "api"
      [ {| taskArn := "t1"; containers := [one "api"]; containerInstanceArn := "i-1" |};
        {| taskArn := "t2"; containers := [one "web"]; containerInstanceArn := "i-2" |} ] arns
    /\ result (Facilitate._get_container_instance_arns (scenario true 0) "c" ["t1"; "t2"] "api")
       = Returned arns.
Proof.
  destruct (placement_resolver_exact (scenario true 0) "c" ["t1"; "t2"] "api" _ eq_refl)
    as [arns [Hp [_ [Hr _]]]].
  exists arns. split; assumption.
Defined.

(** The comparison of names is exact: [Api] is not [api]. *)
Example placement_is_case_sensitive :
  result (Facilitate._get_container_instance_arns (scenario true 0) "c" ["t1"; "t2"] "Api")
  = Returned [].
Proof. reflexivity. Qed.

(** ** The Address Resolver *)

Lemma subscript_all_inr {A B} key (get : A -> option B) xs bs :
  subscript_all key get xs = inr bs <-> map get xs = map Some bs.
Proof.
  revert bs. induction xs as [|x xs IH]; intros bs; simpl.
  - split; intros H.
    + injection H as <-. reflexivity.
    + destruct bs; [reflexivity | discriminate].
  - destruct (get x) as [b|] eqn:Hx.
    + destruct (subscript_all key get xs) as [e|bs'] eqn:Hs.
      * split; intros H; [discriminate|].
        destruct bs as [|b0 bs0]; [discriminate|]. simpl in H.
        injection H as _ H. apply IH in H. discriminate.
      * split; intros H.
        -- injection H as <-. simpl. f_equal. apply IH. reflexivity.
        -- destruct bs as [|b0 bs0]; [discriminate|]. simpl in H.
           injection H as Hb H. apply IH in H. congruence.
    + split; intros H; [discriminate|].
      destruct bs; discriminate.
Qed.

(** C1, as stated, fails: with one host that has a public address and one
    that has none, the Address Resolver does not return the one address;
    the subscript raises [KeyError], nothing is echoed and the Target
    Selector is never reached. *)
Lemma address_resolver_raises_on_missing_address :
  Facilitate._get_container_instance_ips half_private ["h-1"; "h-2"]
  = ([DescribeInstances ["h-1"; "h-2"]], Raised (KeyError "PublicIpAddress"))
  /\ result (Facilitate._get_container_instance_ips half_private ["h-1"; "h-2"])
     <> Returned ["10.0.0.5"]
  /\ result (Ecs.exec half_private "c" "s" "api" "ec2-user" "key" ["sh"])
     = Raised (KeyError "PublicIpAddress")
  /\ stage_ips (trace (Ecs.exec half_private "c" "s" "api" "ec2-user" "key" ["sh"])) = None.
Proof.
  split; [reflexivity|]. split; [|split; reflexivity].
  simpl. discriminate.
Qed.

(** C1, amended. The Address Resolver projects every record of the
    flattened response to the value of its public-address field, in order
    and without filtering: when every record has the field, the list of
    all the values is echoed and returned; and any list it returns (in
    [src/ecs.py]: offers to the Target Selector) holds, position by
    position, the value of the field of every record, so every record
    then has the field and no value is made up for a record without it. *)
Theorem address_resolver_projects_every_record w ids rs :
  describe_instances w ids = inr rs ->
  (forall ips,
      map PublicIpAddress (chain_instances rs) = map Some ips ->
      Facilitate._get_container_instance_ips w ids
      = (DescribeInstances ids :: echo_items ips, Returned ips))
  /\ (forall ips,
        result (Facilitate._get_container_instance_ips w ids) = Returned ips ->
        map PublicIpAddress (chain_instances rs) = map Some ips)
  /\ (forall cluster service container_name user identity_file command ips,
        stage_ids (trace (Ecs.exec w cluster service container_name user identity_file
                            command)) = Some ids ->
        stage_ips (trace (Ecs.exec w cluster service container_name user identity_file
                            command)) = Some ips ->
        map PublicIpAddress (chain_instances rs) = map Some ips).
Proof.
  intros Hd. split; [|split].
  - intros ips Hall. apply subscript_all_inr with (key := "PublicIpAddress") in Hall.
    unfold Facilitate._get_container_instance_ips. rewrite Hd. run_simpl.
    rewrite Hall. run_simpl. rewrite for_each_echo_items. run_simpl. reflexivity.
  - intros ips. unfold Facilitate._get_container_instance_ips. rewrite Hd. run_simpl.
    destruct (subscript_all "PublicIpAddress" PublicIpAddress (chain_instances rs))
      as [e|bs] eqn:Hs; run_simpl.
    + discriminate.
    + rewrite for_each_echo_items. run_simpl. intros H. injection H as <-.
      apply subscript_all_inr in Hs. exact Hs.
  - intros cluster service container_name user identity_file command ips.
    run_ecs; observe; intros Hids Hips; try discriminate.
    all: injection Hids as Hids; injection Hips as <-.
    all: match goal with
         | H : describe_instances _ _ = inr _ |- _ => rewrite Hids, Hd in H; injection H as <-
         end.
    all: match goal with
         | H : subscript_all _ _ _ = inr _ |- _ => apply subscript_all_inr in H; exact H
         end.
Qed.

Lemma address_resolver_projects_every_record_witness :
  Facilitate._get_container_instance_ips (scenario true 0) ["h-1"]
  = ([DescribeInstances ["h-1"]; Echo (item "10.0.0.5")], Returned ["10.0.0.5"]).
Proof.
  destruct (address_resolver_projects_every_record (scenario true 0) ["h-1"] _ eq_refl)
    as [Hall _].
  apply (Hall ["10.0.0.5"]). reflexivity.
Defined.

(** A public address that is present but empty is a value like any other:
    it is echoed and returned, not dropped. *)
Example empty_address_is_passed_on w ids :
  describe_instances w ids
  = inr [ {| Instances := [ {| InstanceId := "h-1"; PublicIpAddress := Some "" |};
                            {| InstanceId := "h-2"; PublicIpAddress := Some "10.0.0.6" |} ] |} ] ->
  Facilitate._get_container_instance_ips w ids
  = ([DescribeInstances ids; Echo (item ""); Echo (item "10.0.0.6")],
     Returned [""; "10.0.0.6"]).
Proof.
  intros H. unfold Facilitate._get_container_instance_ips. rewrite H. reflexivity.
Qed.

(** ** Empty stage outputs *)

(** C2. The code fails the claim when no running task has the wanted
    container: the Placement Resolver's output is empty, nothing is
    reported, and the Host Identifier Resolver, the Address Resolver and
    the Target Selector are invoked all the same, each on zero candidates.
    The run ends only when the list prompt, given no choice, raises
    [IndexError]; or, with an API that refuses an empty request, when the
    request made by the Host Identifier Resolver fails. *)
Theorem empty_placement_does_not_stop :
  let f := Facilitate.exec unmatched "c" "s" "ec2-user" "key" "api" ["sh"] in
  let e := Ecs.exec unmatched "c" "s" "api" "ec2-user" "key" ["sh"] in
  let f' := Facilitate.exec unmatched_strict "c" "s" "ec2-user" "key" "api" ["sh"] in
  stage_outputs (trace f) = (Some ["t1"], Some [], Some [], Some [])
  /\ stage_outputs (trace e) = (Some ["t1"], Some [], Some [], Some [])
  /\ kinds (trace f)
     = [KListTasks; KDescribeTasks; KDescribeContainerInstances; KDescribeInstances;
        KPromptList]
  /\ kinds (trace e) = kinds (trace f)
  /\ echoes (trace f) = ["  - t1"]
  /\ echoes (trace e) = ["  - t1"]
  /\ result f = Raised (IndexError "pop from empty list")
  /\ result e = Raised (IndexError "pop from empty list")
  /\ In (DescribeContainerInstances "c" []) (trace f')
  /\ result f' = Raised (ClientError "InvalidParameterException").
Proof.
  repeat split; simpl; try discriminate.
  right. right. right. left. reflexivity.
Qed.

(** The one emptiness check is the Task Locator's: when the list of
    running tasks is empty the run ends there with the notice and
    [sys.exit(1)], and the Placement Resolver is never invoked with zero
    tasks. *)
Theorem only_empty_task_list_stops w cluster service container_name user identity_file command :
  let f := Facilitate.exec w cluster service user identity_file container_name command in
  let e := Ecs.exec w cluster service container_name user identity_file command in
  (list_tasks w cluster service = inr [] ->
   result f = SysExit 1 /\ result e = SysExit 1
   /\ last (trace f) (Echo "") = Echo no_tasks_notice
   /\ last (trace e) (Echo "") = Echo no_tasks_notice
   /\ stage_outputs (trace f) = (None, None, None, None)
   /\ stage_outputs (trace e) = (None, None, None, None))
  /\ (forall ts, stage_tasks (trace f) = Some ts -> ts <> [])
  /\ (forall ts, stage_tasks (trace e) = Some ts -> ts <> []).
Proof.
  intros f e. subst f e. split; [|split].
  - intros H. unfold_facilitate. unfold Ecs.exec. rewrite H. repeat split.
  - intros ts. run_facilitate; observe; intros H; try discriminate.
    all: injection H as <-; discriminate.
  - intros ts. run_ecs; observe; intros H; try discriminate.
    all: injection H as <-; discriminate.
Qed.

Lemma only_empty_task_list_stops_witness :
  result (Facilitate.exec idle "c" "s" "ec2-user" "key" "api" ["sh"]) = SysExit 1
  /\ stage_tasks (trace (Ecs.exec (scenario true 0) "c" "s" "api" "ec2-user" "key" ["sh"]))
     <> Some [].
Proof.
  destruct (only_empty_task_list_stops idle "c" "s" "api" "ec2-user" "key" ["sh"])
    as [Hstop _].
  destruct (only_empty_task_list_stops (scenario true 0) "c" "s" "api" "ec2-user" "key" ["sh"])
    as [_ [_ Hne]].
  split.
  - apply Hstop. reflexivity.
  - intros H. apply (Hne [] H). reflexivity.
Defined.

(** ** Number of candidates *)

(** C8, as stated, fails: a stage's output is computed from the response
    of its API call, not from the previous output, and nothing in the code
    bounds the response; here one task yields two hosting instances. *)
Lemma candidates_can_grow :
  let f := Facilitate.exec doubling "c" "s" "ec2-user" "key" "api" ["sh"] in
  let e := Ecs.exec doubling "c" "s" "api" "ec2-user" "key" ["sh"] in
  stage_tasks (trace f) = Some ["t1"] /\ stage_arns (trace f) = Some ["i-1"; "i-2"]
  /\ stage_tasks (trace e) = Some ["t1"] /\ stage_arns (trace e) = Some ["i-1"; "i-2"]
  /\ ~ (length ["i-1"; "i-2"] <= length ["t1"]).
Proof.
  repeat split. simpl. lia.
Qed.

Lemma length_map_filter {A B} (f : A -> B) (p : A -> bool) (l : list A) :
  length (map f (filter p l)) <= length l.
Proof.
  rewrite length_map. induction l as [|x l IH]; simpl; [lia|].
  destruct (p x); simpl; lia.
Qed.

Ltac stage_derived :=
  repeat split; intros ? H; try discriminate;
  injection H as <-; do 2 eexists;
  (split; [reflexivity|]); (split; [eassumption|]);
  first [ reflexivity | apply subscript_all_inr with (key := "PublicIpAddress"); assumption ].

Lemma stages_derived w cluster service container_name user identity_file command :
  derived w cluster container_name
    (trace (Facilitate.exec w cluster service user identity_file container_name command))
  /\ derived w cluster container_name
       (trace (Ecs.exec w cluster service container_name user identity_file command)).
Proof.
  unfold derived. split.
  - run_facilitate; observe; stage_derived.
  - run_ecs; observe; stage_derived.
Qed.

Lemma derived_shrinking w cluster container_name t :
  bounded_api w -> derived w cluster container_name t -> shrinking t.
Proof.
  intros [B1 [B2 B3]] [D1 [D2 D3]]. repeat split.
  - intros ts arns Ht Ha. destruct (D1 _ Ha) as [ts' [tasks [Ht' [Hd ->]]]].
    rewrite Ht in Ht'. injection Ht' as <-.
    etransitivity; [apply length_map_filter | eapply B1; eassumption].
  - intros arns ids Ha Hi. destruct (D2 _ Hi) as [arns' [cis [Ha' [Hd ->]]]].
    rewrite Ha in Ha'. injection Ha' as <-.
    rewrite length_map. eapply B2; eassumption.
  - intros ids ips Hi Hp. destruct (D3 _ Hp) as [ids' [rs [Hi' [Hd Hm]]]].
    rewrite Hi in Hi'. injection Hi' as <-.
    apply B3 in Hd. apply (f_equal (@length _)) in Hm. rewrite !length_map in Hm. lia.
Qed.

(** C8, amended. Every stage's output is a filter and/or an element-wise
    projection of the response to the request made with the previous
    stage's output; hence, when no response holds more records than its
    request named, the number of candidates never grows from tasks to
    hosting instances to compute hosts to addresses. *)
Theorem candidates_never_grow w cluster service container_name user identity_file command :
  let f := Facilitate.exec w cluster service user identity_file container_name command in
  let e := Ecs.exec w cluster service container_name user identity_file command in
  derived w cluster container_name (trace f)
  /\ derived w cluster container_name (trace e)
  /\ (bounded_api w -> shrinking (trace f) /\ shrinking (trace e)).
Proof.
  intros f e. subst f e.
  destruct (stages_derived w cluster service container_name user identity_file command)
    as [DF DE].
  split; [exact DF|]. split; [exact DE|].
  intros B. split; eapply derived_shrinking; eassumption.
Qed.

Lemma elementwise_bounded : bounded_api elementwise.
Proof.
  repeat split; simpl.
  - intros c l r H. injection H as <-. rewrite length_map. lia.
  - intros c l r H. injection H as <-. rewrite length_map. lia.
  - intros l r H. injection H as <-. unfold chain_instances. simpl.
    rewrite app_nil_r, length_map. lia.
Qed.

Lemma candidates_never_grow_witness :
  shrinking (trace (Facilitate.exec elementwise "c" "s" "ec2-user" "key" "api" ["sh"]))
  /\ shrinking (trace (Ecs.exec elementwise "c" "s" "api" "ec2-user" "key" ["sh"])).
Proof.
  destruct (candidates_never_grow elementwise "c" "s" "api" "ec2-user" "key" ["sh"])
    as [_ [_ H]].
  apply H. exact elementwise_bounded.
Defined.

(** ** Determinism of the resolution chain *)

Ltac same_step H1 H2 H3 H4 :=
  rewrite <- ?H1, <- ?H2, <- ?H3, <- ?H4; run_step.

Lemma facilitate_stage_outputs_same_api w1 w2 cluster service container_name
      user1 user2 identity1 identity2 command1 command2 :
  same_api w1 w2 ->
  stage_outputs (trace (Facilitate.exec w1 cluster service user1 identity1
                          container_name command1))
  = stage_outputs (trace (Facilitate.exec w2 cluster service user2 identity2
                            container_name command2)).
Proof.
  intros [H1 [H2 [H3 H4]]].
  unfold_facilitate; run_simpl.
  repeat same_step H1 H2 H3 H4; observe; reflexivity.
Qed.

Lemma ecs_stage_outputs_same_api w1 w2 cluster service container_name
      user1 user2 identity1 identity2 command1 command2 :
  same_api w1 w2 ->
  stage_outputs (trace (Ecs.exec w1 cluster service container_name user1 identity1 command1))
  = stage_outputs (trace (Ecs.exec w2 cluster service container_name user2 identity2
                            command2)).
Proof.
  intros [H1 [H2 [H3 H4]]].
  unfold Ecs.exec; run_simpl.
  repeat same_step H1 H2 H3 H4; observe; reflexivity.
Qed.

(** C9. The outputs of the four resolution stages are determined by the
    responses of the API: two runs for the same cluster, service and
    container, in worlds whose API operations answer alike, hand the same
    ordered sequences from stage to stage, whatever the operator answers,
    the remote command returns, and the login, key and command given; in
    both implementations. *)
Theorem resolution_chain_deterministic w1 w2 cluster service container_name
        user1 user2 identity1 identity2 command1 command2 :
  same_api w1 w2 ->
  stage_outputs (trace (Facilitate.exec w1 cluster service user1 identity1
                          container_name command1))
  = stage_outputs (trace (Facilitate.exec w2 cluster service user2 identity2
                            container_name command2))
  /\ stage_outputs (trace (Ecs.exec w1 cluster service container_name user1 identity1
                             command1))
     = stage_outputs (trace (Ecs.exec w2 cluster service container_name user2 identity2
                               command2)).
Proof.
  intros H. split.
  - apply facilitate_stage_outputs_same_api. exact H.
  - apply ecs_stage_outputs_same_api. exact H.
Qed.

Lemma scenario_same_api c1 c2 rc1 rc2 : same_api (scenario c1 rc1) (scenario c2 rc2).
Proof. repeat split. Qed.

Lemma resolution_chain_deterministic_witness :
  stage_outputs (trace (Facilitate.exec (scenario true 0) "c" "s" "ec2-user" "key" "api"
                          ["echo"; "hi"]))
  = stage_outputs (trace (Facilitate.exec (scenario false 7) "c" "s" "root" "other" "api"
                            ["sh"])).
Proof.
  apply (resolution_chain_deterministic (scenario true 0) (scenario false 7) "c" "s" "api"
           "ec2-user" "root" "key" "other" ["echo"; "hi"] ["sh"]).
  apply scenario_same_api.
Defined.

(** The outputs in the scenario of the specification. *)
Example scenario_stage_outputs :
  stage_outputs (trace (Facilitate.exec (scenario true 0) "c" "s" "ec2-user" "key" "api"
                          ["echo"; "hi"]))
  = (Some ["t1"; "t2"], Some ["i-1"], Some ["h-1"], Some ["10.0.0.5"]).
Proof. reflexivity. Qed.

(** ** The two implementations *)

Lemma without_blank_echo_items l t :
  without_blank (echo_items l ++ t) = echo_items l ++ without_blank t.
Proof.
  induction l as [|x l IH]; [reflexivity|].
  simpl. rewrite <- IH. reflexivity.
Qed.

Ltac blank :=
  repeat first
    [ rewrite without_blank_echo_items
    | progress (unfold without_blank; cbn [filter is_blank_echo negb String.eqb app];
                fold without_blank) ].

Lemma ecs_trace_facilitate w cluster service container_name user identity_file command :
  without_blank (trace (Ecs.exec w cluster service container_name user identity_file command))
  = trace (Facilitate.exec w cluster service user identity_file container_name command).
Proof.
  unfold Ecs.exec. run_facilitate.
  all: blank; reflexivity.
Qed.

(** C10. On the same API responses and operator answers the two
    implementations behave alike: the trace of [src/ecs.py], the blank
    line it prints before the remote session left out, is the trace of
    [src/facilitate/ecs.py]; so are the outputs of the stages and the
    command line given to the shell; the exit status is the same, and so
    is the outcome, but for the refusal at the gate, where one returns
    and the other calls [sys.exit(0)]. *)
Theorem implementations_agree w cluster service container_name user identity_file command :
  let e := Ecs.exec w cluster service container_name user identity_file command in
  let f := Facilitate.exec w cluster service user identity_file container_name command in
  without_blank (trace e) = trace f
  /\ stage_outputs (trace e) = stage_outputs (trace f)
  /\ remote_command (trace e) = remote_command (trace f)
  /\ exit_status (result e) = exit_status (result f)
  /\ (result e = result f \/ (result e = Returned None /\ result f = SysExit 0)).
Proof.
  intros e f. subst e f.
  pose proof (ecs_trace_facilitate w cluster service container_name user identity_file command)
    as Ht.
  split; [exact Ht|]. split; [|split; [|split]].
  - rewrite <- Ht. unfold stage_outputs, stage_tasks, stage_arns, stage_ids, stage_ips.
    rewrite !first_some_without_blank by reflexivity. reflexivity.
  - rewrite <- Ht. unfold remote_command.
    rewrite first_some_without_blank by reflexivity. reflexivity.
  - unfold Ecs.exec. run_facilitate; reflexivity.
  - unfold Ecs.exec. run_facilitate; (left; reflexivity) || (right; split; reflexivity).
Qed.

(** ** Further properties of the runs *)

Lemma kinds_echo_items l t : kinds (echo_items l ++ t) = kinds t.
Proof. induction l as [|x l IH]; [reflexivity | exact IH]. Qed.

Lemma echoes_echo_items l t : echoes (echo_items l ++ t) = map item l ++ echoes t.
Proof. induction l as [|x l IH]; [reflexivity|]. simpl. rewrite <- IH. reflexivity. Qed.

Ltac observe_all :=
  unfold confirm_asked; observe.




(** A subprocess is started only after the Confirmation Gate was
    answered with yes. *)
Theorem subprocess_only_after_yes w cluster service container_name user identity_file
        command c :
  (remote_command (trace (Facilitate.exec w cluster service user identity_file
                            container_name command)) = Some c ->
   exists m,
     confirm_asked (trace (Facilitate.exec w cluster service user identity_file
                             container_name command)) = Some m
     /\ answer_confirm w m = Some true)
  /\ (remote_command (trace (Ecs.exec w cluster service container_name user identity_file
                               command)) = Some c ->
      exists m,
        confirm_asked (trace (Ecs.exec w cluster service container_name user identity_file
                                command)) = Some m
        /\ answer_confirm w m = Some true).
Proof.
  split.
  - run_facilitate; observe_all; intros H; try discriminate.
    eexists. split; [reflexivity | assumption].
  - run_ecs; observe_all; intros H; try discriminate.
    eexists. split; [reflexivity | assumption].
Qed.

Lemma subprocess_only_after_yes_witness :
  exists m,
    confirm_asked (trace (Facilitate.exec (scenario true 0) "c" "s" "ec2-user" "key" "api"
                            ["echo"; "hi"])) = Some m
    /\ answer_confirm (scenario true 0) m = Some true.
Proof.
  destruct (subprocess_only_after_yes (scenario true 0) "c" "s" "api" "ec2-user" "key"
              ["echo"; "hi"]
              (Facilitate.ssh_command "key" "ec2-user" "10.0.0.5" "api" "echo hi"))
    as [H _].
  apply H. reflexivity.
Defined.

(** What the operator confirmed is what is executed: the question at the
    gate names the joined command, the container and the address the
    operator chose, and the command line of the subprocess is built from
    the same three. *)
Theorem confirmed_is_executed w cluster service container_name user identity_file command c :
  let normalized_command := join_spaces command in
  (remote_command (trace (Facilitate.exec w cluster service user identity_file
                            container_name command)) = Some c ->
   exists ip,
     confirm_asked (trace (Facilitate.exec w cluster service user identity_file
                             container_name command))
     = Some (confirm_message normalized_command container_name ip)
     /\ c = Facilitate.ssh_command identity_file user ip container_name normalized_command)
  /\ (remote_command (trace (Ecs.exec w cluster service container_name user identity_file
                               command)) = Some c ->
      exists ip,
        confirm_asked (trace (Ecs.exec w cluster service container_name user identity_file
                                command))
        = Some (confirm_message normalized_command container_name ip)
        /\ c = Facilitate.ssh_command identity_file user ip container_name normalized_command).
Proof.
  cbv zeta. split.
  - run_facilitate; observe_all; intros H; try discriminate.
    injection H as <-. eexists. split; reflexivity.
  - run_ecs; observe_all; intros H; try discriminate.
    injection H as <-. eexists. split; reflexivity.
Qed.

Lemma confirmed_is_executed_witness :
  exists ip,
    confirm_asked (trace (Ecs.exec (scenario true 0) "c" "s" "api" "ec2-user" "key"
                            ["echo"; "hi"]))
    = Some (confirm_message (join_spaces ["echo"; "hi"]) "api" ip)
    /\ Facilitate.ssh_command "key" "ec2-user" "10.0.0.5" "api" "echo hi"
       = Facilitate.ssh_command "key" "ec2-user" ip "api" (join_spaces ["echo"; "hi"]).
Proof.
  destruct (confirmed_is_executed (scenario true 0) "c" "s" "api" "ec2-user" "key"
              ["echo"; "hi"]
              (Facilitate.ssh_command "key" "ec2-user" "10.0.0.5" "api" "echo hi"))
    as [_ H].
  apply H. reflexivity.
Defined.

(** [sys.exit] is reached in two places only: with 1 when [list_tasks]
    answered with no task, and, in [src/facilitate/ecs.py], with 0 when the
    operator refused at the gate; [src/ecs.py] never exits with 0 through
    [sys.exit]. *)
Theorem sys_exit_codes w cluster service container_name user identity_file command n :
  (result (Facilitate.exec w cluster service user identity_file container_name command)
   = SysExit n ->
   (n = 1%Z /\ list_tasks w cluster service = inr [])
   \/ (n = 0%Z
       /\ exists m,
           confirm_asked (trace (Facilitate.exec w cluster service user identity_file
                                   container_name command)) = Some m
           /\ answer_confirm w m = Some false))
  /\ (result (Ecs.exec w cluster service container_name user identity_file command)
      = SysExit n ->
      n = 1%Z /\ list_tasks w cluster service = inr []).
Proof.
  split.
  - run_facilitate; intros H; try discriminate; injection H as <-.
    + left. split; reflexivity.
    + right. split; [reflexivity|]. observe_all. eexists. split; [reflexivity | assumption].
  - run_ecs; intros H; try discriminate; injection H as <-.
    split; reflexivity.
Qed.

Lemma sys_exit_codes_witness :
  (0 = 1 /\ list_tasks (scenario false 7) "c" "s" = inr [])%Z
  \/ (0 = 0
      /\ exists m,
          confirm_asked (trace (Facilitate.exec (scenario false 7) "c" "s" "ec2-user" "key"
                                  "api" ["sh"])) = Some m
          /\ answer_confirm (scenario false 7) m = Some false)%Z.
Proof.
  destruct (sys_exit_codes (scenario false 7) "c" "s" "api" "ec2-user" "key" ["sh"] 0%Z)
    as [H _].
  apply H. reflexivity.
Defined.

(** The Task Locator returns a list exactly when [list_tasks] answered
    with that list and the list is not empty: what it hands to the
    Placement Resolver is never empty, and never anything but the response. *)
Theorem task_locator_returns_nonempty w cluster service l :
  result (Facilitate._get_container_task_arns w cluster service) = Returned l
  <-> list_tasks w cluster service = inr l /\ l <> [].
Proof.
  unfold Facilitate._get_container_task_arns.
  destruct (list_tasks w cluster service) as [e|[|a ts]] eqn:Hl; run_simpl.
  - split; [discriminate | intros [H _]; discriminate].
  - split; [discriminate | intros [H Hne]; injection H as <-; congruence].
  - rewrite for_each_echo_items. run_simpl. split.
    + intros H. injection H as <-. split; [reflexivity | discriminate].
    + intros [H _]. injection H as <-. reflexivity.
Qed.

Lemma task_locator_returns_nonempty_witness :
  list_tasks (scenario true 0) "c" "s" = inr ["t1"; "t2"] /\ ["t1"; "t2"] <> [].
Proof.
  apply (task_locator_returns_nonempty (scenario true 0) "c" "s" ["t1"; "t2"]).
  reflexivity.
Defined.

Ltac kinds_simpl :=
  repeat first [ rewrite kinds_echo_items | progress cbn [kinds kind_of app] ].

Ltac prefix_of_pipeline :=
  unfold pipeline_order;
  first [ exists 1; reflexivity | exists 2; reflexivity | exists 3; reflexivity
        | exists 4; reflexivity | exists 5; reflexivity | exists 6; reflexivity
        | exists 7; reflexivity ].

(** Control flows top to bottom: the API calls, the two prompts and the
    subprocess of any run are an initial part of the pipeline, in its
    order, each at most once; no stage is repeated, skipped or taken out
    of turn. *)
Theorem events_follow_pipeline_order w cluster service container_name user identity_file
        command :
  (exists n,
      kinds (trace (Facilitate.exec w cluster service user identity_file container_name
                      command)) = firstn n pipeline_order)
  /\ (exists n,
         kinds (trace (Ecs.exec w cluster service container_name user identity_file
                         command)) = firstn n pipeline_order).
Proof.
  split.
  - run_facilitate; kinds_simpl; prefix_of_pipeline.
  - run_ecs; kinds_simpl; prefix_of_pipeline.
Qed.

Lemma subscript_all_inl {A B} key (get : A -> option B) xs e :
  subscript_all key get xs = inl e
  <-> e = KeyError key /\ exists x, In x xs /\ get x = None.
Proof.
  revert e. induction xs as [|x xs IH]; intros e; simpl.
  - split; [discriminate | intros [_ [y [[] _]]]].
  - destruct (get x) as [b|] eqn:Hx.
    + destruct (subscript_all key get xs) as [e'|bs] eqn:Hs.
      * destruct (proj1 (IH e') eq_refl) as [He' [y [Hin Hy]]]. split.
        -- intros H. injection H as <-.
           split; [exact He'|]. exists y. split; [right; exact Hin | exact Hy].
        -- intros [He _]. congruence.
      * split; [discriminate|].
        intros [He [y [[<-|Hin] Hy]]]; [congruence|].
        assert (@inr exn (list B) bs = inl e) as Habs
            by (apply IH; split; [exact He | exists y; auto]).
        discriminate.
    + split.
      * intros H. injection H as <-. split; [reflexivity|]. exists x. auto.
      * intros [-> _]. reflexivity.
Qed.

(** The Address Resolver raises [KeyError] for the key [PublicIpAddress]
    exactly when some record of the flattened response has no public
    address; then nothing at all is echoed, not even the addresses of the
    records before the one that lacks it. *)
Theorem address_resolver_key_error w ids rs :
  describe_instances w ids = inr rs ->
  (exists i, In i (chain_instances rs) /\ PublicIpAddress i = None)
  <-> Facilitate._get_container_instance_ips w ids
      = ([DescribeInstances ids], Raised (KeyError "PublicIpAddress")).
Proof.
  intros Hd. unfold Facilitate._get_container_instance_ips. rewrite Hd. run_simpl.
  destruct (subscript_all "PublicIpAddress" PublicIpAddress (chain_instances rs))
    as [e|bs] eqn:Hs; run_simpl.
  - apply subscript_all_inl in Hs. destruct Hs as [-> Hex].
    split; [reflexivity | intros _; exact Hex].
  - rewrite for_each_echo_items. run_simpl. split.
    + intros Hex.
      assert (inr bs = inl (KeyError "PublicIpAddress")) as Habs.
      { rewrite <- Hs. apply subscript_all_inl. split; [reflexivity | exact Hex]. }
      discriminate.
    + intros H. discriminate.
Qed.

Lemma address_resolver_key_error_witness :
  Facilitate._get_container_instance_ips half_private ["h-1"; "h-2"]
  = ([DescribeInstances ["h-1"; "h-2"]], Raised (KeyError "PublicIpAddress")).
Proof.
  apply (address_resolver_key_error half_private ["h-1"; "h-2"] _ eq_refl).
  exists {| InstanceId := "h-2"; PublicIpAddress := None |}.
  split; [right; left; reflexivity | reflexivity].
Defined.

Ltac from_inventory Hw :=
  match goal with
  | Ha : answer_list _ _ ?ips = Some ?a, Hs : subscript_all _ _ _ = inr ?ips |- _ =>
      apply Hw in Ha; apply subscript_all_inr in Hs;
      apply (in_map Some) in Ha; rewrite <- Hs in Ha;
      apply in_map_iff in Ha; destruct Ha as [i [Hi Hin]];
      exists i, a; split; [exact Hin|]; split; [exact Hi | reflexivity]
  end.

(** When the list prompt answers with one of its choices, the address in
    the command line of the subprocess is the public address of a host
    record that [describe_instances] returned for the resolved hosts: the
    target is never an address from elsewhere. *)
Theorem target_comes_from_inventory w cluster service container_name user identity_file
        command c :
  honours_choices w ->
  let normalized_command := join_spaces command in
  (remote_command (trace (Facilitate.exec w cluster service user identity_file
                            container_name command)) = Some c ->
   exists ids rs,
     stage_ids (trace (Facilitate.exec w cluster service user identity_file container_name
                         command)) = Some ids
     /\ describe_instances w ids = inr rs
     /\ exists i ip,
         In i (chain_instances rs) /\ PublicIpAddress i = Some ip
         /\ c = Facilitate.ssh_command identity_file user ip container_name
                  normalized_command)
  /\ (remote_command (trace (Ecs.exec w cluster service container_name user identity_file
                               command)) = Some c ->
      exists ids rs,
        stage_ids (trace (Ecs.exec w cluster service container_name user identity_file
                            command)) = Some ids
        /\ describe_instances w ids = inr rs
        /\ exists i ip,
            In i (chain_instances rs) /\ PublicIpAddress i = Some ip
            /\ c = Facilitate.ssh_command identity_file user ip container_name
                     normalized_command).
Proof.
  intros Hw. cbv zeta. split.
  - run_facilitate; observe; intros Hc; try discriminate.
    injection Hc as <-.
    do 2 eexists. split; [reflexivity|]. split; [eassumption|].
    from_inventory Hw.
  - run_ecs; observe; intros Hc; try discriminate.
    injection Hc as <-.
    do 2 eexists. split; [reflexivity|]. split; [eassumption|].
    from_inventory Hw.
Qed.

Lemma elementwise_honours_choices : honours_choices elementwise.
Proof.
  intros m l a H. destruct l as [|x l]; [discriminate|].
  injection H as <-. left. reflexivity.
Qed.

Lemma target_comes_from_inventory_witness :
  exists ids rs,
    stage_ids (trace (Facilitate.exec elementwise "c" "s" "ec2-user" "key" "api" ["sh"]))
    = Some ids
    /\ describe_instances elementwise ids = inr rs
    /\ exists i ip,
        In i (chain_instances rs) /\ PublicIpAddress i = Some ip
        /\ Facilitate.ssh_command "key" "ec2-user" "ip-h-i-t1" "api" "sh"
           = Facilitate.ssh_command "key" "ec2-user" ip "api" (join_spaces ["sh"]).
Proof.
  destruct (target_comes_from_inventory elementwise "c" "s" "api" "ec2-user" "key" ["sh"]
              (Facilitate.ssh_command "key" "ec2-user" "ip-h-i-t1" "api" "sh")
              elementwise_honours_choices)
    as [H _].
  apply H; reflexivity.
Defined.

Lemma Forall_echo_items (P : event -> Prop) l :
  (forall s, P (Echo s)) -> Forall P (echo_items l).
Proof.
  intros HP. induction l as [|x l IH]; constructor; [apply HP | exact IH].
Qed.

Ltac all_on_cluster :=
  repeat first
    [ apply Forall_nil
    | apply Forall_cons; [simpl; auto|]
    | apply Forall_app; split; [apply Forall_echo_items; intros; exact I|] ].

(** Every request of a run to the ECS API names the cluster the command
    was given, and the one [list_tasks] request names the service: no
    other cluster or service is ever asked about. *)
Theorem requests_stay_on_cluster w cluster service container_name user identity_file command :
  Forall (on_cluster cluster service)
         (trace (Facilitate.exec w cluster service user identity_file container_name command))
  /\ Forall (on_cluster cluster service)
            (trace (Ecs.exec w cluster service container_name user identity_file command)).
Proof.
  split.
  - run_facilitate; all_on_cluster.
  - run_ecs; all_on_cluster.
Qed.

Ltac echoes_simpl :=
  repeat first [ rewrite echoes_echo_items | progress cbn [echoes app] ].

(** The audit trail: in a run that got as far as the call of the list
    prompt, the lines echoed are one item line for every element of the
    four stage outputs, stage by stage and in order, followed by the abort
    notice after a refusal, by one blank line before the subprocess of
    [src/ecs.py], and by nothing else. *)
Theorem echoes_list_every_candidate w cluster service container_name user identity_file
        command ts arns ids ips :
  let items := map item ts ++ map item arns ++ map item ids ++ map item ips in
  let f := Facilitate.exec w cluster service user identity_file container_name command in
  let e := Ecs.exec w cluster service container_name user identity_file command in
  (stage_outputs (trace f) = (Some ts, Some arns, Some ids, Some ips) ->
   echoes (trace f)
   = items ++ match result f with
              | SysExit _ => [abort_notice]
              | _ => []
              end)
  /\ (stage_outputs (trace e) = (Some ts, Some arns, Some ids, Some ips) ->
      echoes (trace e)
      = items ++ match result e with
                 | Returned (Some _) => [""]
                 | Returned None => [abort_notice]
                 | _ => []
                 end).
Proof.
  cbv zeta. split.
  - run_facilitate; observe; intros H; try discriminate.
    all: injection H as <- <- <- <-; echoes_simpl; rewrite <- ?app_assoc, ?app_nil_r.
    all: reflexivity.
  - run_ecs; observe; intros H; try discriminate.
    all: injection H as <- <- <- <-; echoes_simpl; rewrite <- ?app_assoc, ?app_nil_r.
    all: reflexivity.
Qed.

Lemma echoes_list_every_candidate_witness :
  echoes (trace (Ecs.exec (scenario true 0) "c" "s" "api" "ec2-user" "key" ["echo"; "hi"]))
  = ["  - t1"; "  - t2"; "  - i-1"; "  - h-1"; "  - 10.0.0.5"; ""].
Proof.
  destruct (echoes_list_every_candidate (scenario true 0) "c" "s" "api" "ec2-user" "key"
              ["echo"; "hi"] ["t1"; "t2"] ["i-1"] ["h-1"] ["10.0.0.5"]) as [_ H].
  exact (H eq_refl).
Defined.

Lemma join_spaces_cons x y l :
  join_spaces (x :: y :: l) = (x ++ " " ++ join_spaces (y :: l))%string.
Proof. reflexivity. Qed.

Lemma join_spaces_last_two l a b :
  join_spaces (l ++ [(a ++ " " ++ b)%string]) = join_spaces (l ++ [a; b]).
Proof.
  induction l as [|x l IH]; [reflexivity|].
  destruct l as [|y l]; [reflexivity|].
  change (join_spaces (x :: (y :: l) ++ [(a ++ " " ++ b)%string])
          = join_spaces (x :: (y :: l) ++ [a; b])).
  simpl app in *. rewrite !join_spaces_cons. rewrite IH. reflexivity.
Qed.

(** The boundaries between the arguments of the command are lost: a last
    argument that holds a space gives the very same run, question at the
    gate and command line included, as two arguments in its place. *)
Theorem argument_boundaries_are_lost w cluster service container_name user identity_file l a b :
  Facilitate.exec w cluster service user identity_file container_name
    (l ++ [(a ++ " " ++ b)%string])
  = Facilitate.exec w cluster service user identity_file container_name (l ++ [a; b])
  /\ Ecs.exec w cluster service container_name user identity_file
       (l ++ [(a ++ " " ++ b)%string])
     = Ecs.exec w cluster service container_name user identity_file (l ++ [a; b]).
Proof.
  unfold Facilitate.exec, Ecs.exec. rewrite join_spaces_last_two. split; reflexivity.
Qed.

Lemma map_some_app {A} (xs ys : list (option A)) (l : list A) :
  xs ++ ys = map Some l ->
  exists l1 l2, l = l1 ++ l2 /\ xs = map Some l1 /\ ys = map Some l2.
Proof.
  revert l. induction xs as [|x xs IH]; intros l H; simpl in H.
  - exists [], l. auto.
  - destruct l as [|a l]; [discriminate|]. simpl in H. injection H as Hx H.
    destruct (IH l H) as [l1 [l2 [-> [-> ->]]]].
    exists (a :: l1), l2. subst x. auto.
Qed.

Lemma chain_instances_app rs1 rs2 :
  chain_instances (rs1 ++ rs2) = chain_instances rs1 ++ chain_instances rs2.
Proof. unfold chain_instances. rewrite map_app. apply concat_app. Qed.

(** The flattening goes reservation by reservation: the addresses the
    Address Resolver returns for a response are those of the hosts of its
    first reservations followed by those of the hosts of the later ones,
    wherever the response is cut; a reservation without hosts adds
    nothing. *)
Theorem addresses_follow_reservations w ids rs1 rs2 ips :
  describe_instances w ids = inr (rs1 ++ rs2) ->
  result (Facilitate._get_container_instance_ips w ids) = Returned ips ->
  exists ips1 ips2,
    ips = ips1 ++ ips2
    /\ map PublicIpAddress (chain_instances rs1) = map Some ips1
    /\ map PublicIpAddress (chain_instances rs2) = map Some ips2.
Proof.
  intros Hd. unfold Facilitate._get_container_instance_ips. rewrite Hd. run_simpl.
  destruct (subscript_all "PublicIpAddress" PublicIpAddress (chain_instances (rs1 ++ rs2)))
    as [e|bs] eqn:Hs; run_simpl; [discriminate|].
  rewrite for_each_echo_items. run_simpl. intros H. injection H as <-.
  apply subscript_all_inr in Hs. rewrite chain_instances_app, map_app in Hs.
  apply map_some_app. exact Hs.
Qed.

Lemma addresses_follow_reservations_witness :
  exists ips1 ips2,
    ["10.0.0.5"] = ips1 ++ ips2
    /\ map PublicIpAddress (chain_instances [ {| Instances := [] |} ]) = map Some ips1
    /\ map PublicIpAddress
         (chain_instances
            [ {| Instances := [ {| InstanceId := "h-1";
                                   PublicIpAddress := Some "10.0.0.5" |} ] |} ])
       = map Some ips2.
Proof.
  apply (addresses_follow_reservations
           {| list_tasks := fun _ _ => inr [];
              describe_tasks := fun _ _ => inr [];
              describe_container_instances := fun _ _ => inr [];
              describe_instances := fun _ =>
                inr ([ {| Instances := [] |} ]
                     ++ [ {| Instances := [ {| InstanceId := "h-1";
                                               PublicIpAddress := Some "10.0.0.5" |} ] |} ]);
              answer_list := fun _ _ => None;
              answer_confirm := fun _ => Some true;
              subprocess_call := fun _ => 0%Z |}
           ["h-1"]); reflexivity.
Defined.

(** The whole run, when every stage succeeds, there is an address to
    offer, and the operator picks one and says yes: the four requests,
    each made with the previous stage's output and followed by the item
    lines of its own, the two prompts and the one subprocess, whose exit
    code the command function of [src/facilitate/ecs.py] returns. *)
Theorem confirmed_run w cluster service container_name user identity_file command
        a ts tasks cis rs ips ip :
  let normalized_command := join_spaces command in
  let arns := map containerInstanceArn (filter (has_target container_name) tasks) in
  let ids := map ec2InstanceId cis in
  let line := Facilitate.ssh_command identity_file user ip container_name normalized_command in
  list_tasks w cluster service = inr (a :: ts) ->
  describe_tasks w cluster (a :: ts) = inr tasks ->
  describe_container_instances w cluster arns = inr cis ->
  describe_instances w ids = inr rs ->
  map PublicIpAddress (chain_instances rs) = map Some ips ->
  ips <> [] ->
  answer_list w choose_message ips = Some ip ->
  answer_confirm w (confirm_message normalized_command container_name ip) = Some true ->
  Facilitate.exec w cluster service user identity_file container_name command
  = (ListTasks cluster service :: echo_items (a :: ts)
       ++ DescribeTasks cluster (a :: ts) :: echo_items arns
       ++ DescribeContainerInstances cluster arns :: echo_items ids
       ++ DescribeInstances ids :: echo_items ips
       ++ [PromptList choose_message ips;
           PromptConfirm (confirm_message normalized_command container_name ip);
           SubprocessCall line],
     Returned (Some (subprocess_call w line))).
Proof.
  intros normalized_command arns ids line Hl Ht Hc Hi Hips Hne Hip Hyes.
  subst normalized_command arns ids line.
  apply subscript_all_inr with (key := "PublicIpAddress") in Hips.
  unfold_facilitate. rewrite Hl. run_simpl. rewrite for_each_echo_items. run_simpl.
  rewrite Ht. run_simpl. rewrite for_each_echo_items. run_simpl.
  unfold has_target in Hc. rewrite Hc. run_simpl. rewrite for_each_echo_items. run_simpl.
  rewrite Hi. run_simpl. rewrite Hips. run_simpl. rewrite for_each_echo_items. run_simpl.
  destruct ips as [|x ips]; [congruence|]. run_simpl.
  rewrite Hip. run_simpl. rewrite Hyes. run_simpl. reflexivity.
Qed.

Lemma confirmed_run_witness :
  result (Facilitate.exec (scenario true 7) "c" "s" "ec2-user" "key" "api" ["echo"; "hi"])
  = Returned (Some 7%Z).
Proof.
  rewrite (confirmed_run (scenario true 7) "c" "s" "api" "ec2-user" "key" ["echo"; "hi"]
             "t1" ["t2"] _ _ _ ["10.0.0.5"] "10.0.0.5"
             eq_refl eq_refl eq_refl eq_refl eq_refl).
  - reflexivity.
  - discriminate.
  - reflexivity.
  - reflexivity.
Defined.

(** What the command function returns: in [src/facilitate/ecs.py] only
    ever the exit code of the subprocess it started; in [src/ecs.py]
    either that, or [None] after a refusal at the gate, in which case no
    subprocess was started. *)
Theorem returned_values w cluster service container_name user identity_file command v :
  (result (Facilitate.exec w cluster service user identity_file container_name command)
   = Returned v ->
   exists c,
     remote_command (trace (Facilitate.exec w cluster service user identity_file
                              container_name command)) = Some c
     /\ v = Some (subprocess_call w c))
  /\ (result (Ecs.exec w cluster service container_name user identity_file command)
      = Returned v ->
      let t := trace (Ecs.exec w cluster service container_name user identity_file command) in
      (v = None /\ remote_command t = None
       /\ exists m, confirm_asked t = Some m /\ answer_confirm w m = Some false)
      \/ (exists c, remote_command t = Some c /\ v = Some (subprocess_call w c))).
Proof.
  split.
  - run_facilitate; intros H; try discriminate.
    injection H as <-. observe. eexists. split; reflexivity.
  - run_ecs; intros H; try discriminate; injection H as <-; cbv zeta; observe_all.
    + right. eexists. split; reflexivity.
    + left. split; [reflexivity|]. split; [reflexivity|].
      eexists. split; [reflexivity | assumption].
Qed.

Lemma returned_values_witness :
  exists c,
    remote_command (trace (Facilitate.exec (scenario true 7) "c" "s" "ec2-user" "key" "api"
                             ["echo"; "hi"])) = Some c
    /\ Some 7%Z = Some (subprocess_call (scenario true 7) c).
Proof.
  destruct (returned_values (scenario true 7) "c" "s" "api" "ec2-user" "key" ["echo"; "hi"]
              (Some 7%Z)) as [H _].
  apply H. reflexivity.
Defined.
